(** * WaterGuard backend (app.py): signup, login, session and booking routes

    A shallow embedding of the Flask route handlers of [app.py].  Every
    handler is a function from the state it can observe (the [users] table
    of users.db and its write lock, the signed session cookie, the mail
    handed to the SMTP relay) to a response and a new state.

    What lies outside the repository is taken as a parameter:
    - the bcrypt library ([hashpw], [checkpw]) and [str.strip], in the
      record [externals];
    - the salt drawn by [bcrypt.gensalt()], an argument of [signup];
    - the outcome of the SMTP conversation and of the LLM call, given per
      request as an oracle;
    - the moment at which the garbage collector finalises a connection that
      a handler left open, an event of its own between two requests.

    Scope of the payload model: [request.json] is the already parsed body.
    It is either a JSON object whose field values are null, booleans,
    integers or strings, or something that is not an object.  Floats and
    nested arrays or objects as field values are not modelled, and neither
    is a body that [request.json] refuses to parse.  A Python [str] without
    lone surrogates is represented by its UTF-8 bytes, so [str.encode()] is
    the identity on the representation; a [str] that holds a lone surrogate
    (the JSON parser accepts one) has no UTF-8 form and is a case of its
    own. *)

From Stdlib Require Import ZArith String List DecimalString Lia.
From stdpp Require Import gmap strings.
Import ListNotations.

Open Scope string_scope.
Open Scope Z_scope.

(** ** JSON payloads *)

Inductive jvalue :=
| JNull
| JBool (b : bool)
| JInt (n : Z)
| JStr (s : string)                   (* a str that UTF-8 can encode *)
| JLone (s : string) (err : string).  (* a str holding a lone surrogate: its
                                         text, and the text of the
                                         UnicodeEncodeError that encoding it
                                         raises *)

(** [request.json]: a dict, or any other JSON value (null, list, number,
    string), on which [data.get] raises AttributeError. *)
Inductive payload :=
| JObject (d : gmap string jvalue)
| JOther.

Definition bytes := list Byte.byte.

(** Python truthiness, as used by [not name or not email or not password]. *)
Definition truthy (v : jvalue) : bool :=
  match v with
  | JNull => false
  | JBool b => b
  | JInt n => negb (n =? 0)
  | JStr s => negb (String.eqb s "")
  | JLone _ _ => true
  end.

(** [isinstance(v, str)] *)
Definition is_str (v : jvalue) : bool :=
  match v with
  | JStr _ | JLone _ _ => true
  | _ => false
  end.

(** [data.get(k)]: the value, or None when the key is absent. *)
Definition get (d : gmap string jvalue) (k : string) : jvalue :=
  default JNull (d !! k).

(** [data.get(k, dflt)]. *)
Definition get_default (d : gmap string jvalue) (k : string) (dflt : jvalue) : jvalue :=
  default dflt (d !! k).

Definition decimal (n : Z) : string := NilZero.string_of_int (Z.to_int n).

(** [str(v)], as performed by an f-string placeholder. *)
Definition py_str (v : jvalue) : string :=
  match v with
  | JNull => "None"
  | JBool true => "True"
  | JBool false => "False"
  | JInt n => decimal n
  | JStr s => s
  | JLone s _ => s
  end.

(** ** Exceptions and responses *)

Inductive exn :=
| AttributeError
| OverflowError
| IntegrityError
| OperationalError                    (* sqlite3: database is locked *)
| UnicodeEncodeError (text : string)
| ValueError.

(** [str(e)].  Of these exceptions only OverflowError, OperationalError
    and UnicodeEncodeError are ever formatted into a message: the others
    either leave the handler or are answered with a fixed text.  What the
    relay or the model raise is carried as its text. *)
Definition exn_str (e : exn) : string :=
  match e with
  | AttributeError => "object has no attribute"
  | OverflowError => "Python int too large to convert to SQLite INTEGER"
  | IntegrityError => "UNIQUE constraint failed: users.email"
  | OperationalError => "database is locked"
  | UnicodeEncodeError text => text
  | ValueError => "Invalid salt"
  end.

Inductive rbody :=
| Message (s : string)          (* jsonify({"message": s}) *)
| Reply (s : string)            (* jsonify({"reply": s}) *)
| Authenticated (b : bool)      (* jsonify({"authenticated": b}) *)
| Traceback (e : exn).          (* Flask's own page for an exception that left the handler *)

Record response := Response { status : Z; body : rbody }.

(** [return jsonify(...)] without a status is a 200. *)
Definition ok (b : rbody) : response := Response 200 b.

(** An exception that no [except] clause of the handler catches reaches
    Flask, which answers 500 with its own (non JSON) error page. *)
Definition unhandled (e : exn) : response := Response 500 (Traceback e).

Definition is_json (b : rbody) : bool :=
  match b with
  | Traceback _ => false
  | _ => true
  end.

(** ** The users table *)

Record user := User {
  uid : Z;                 (* id INTEGER PRIMARY KEY AUTOINCREMENT *)
  uname : string;          (* name TEXT NOT NULL *)
  uemail : string;         (* email TEXT UNIQUE NOT NULL *)
  upassword : bytes        (* password BLOB NOT NULL *)
}.

Inductive sqlval :=
| SNull
| SInteger (n : Z)
| SText (s : string).

(** How the sqlite3 module binds a Python value to a [?] placeholder. *)
Definition adapt (v : jvalue) : exn + sqlval :=
  match v with
  | JNull => inr SNull
  | JBool b => inr (SInteger (if b then 1 else 0))
  | JInt n =>
      if (- 2 ^ 63 <=? n) && (n <? 2 ^ 63) then inr (SInteger n) else inl OverflowError
  | JStr s => inr (SText s)
  | JLone _ err => inl (UnicodeEncodeError err)
  end.

(** TEXT column affinity: numeric data is converted to its text form. *)
Definition text_affinity (v : sqlval) : option string :=
  match v with
  | SNull => None
  | SInteger n => Some (decimal n)
  | SText s => Some s
  end.

Definition has_email (e : string) (u : user) : bool := String.eqb (uemail u) e.

(** AUTOINCREMENT: one more than the largest rowid the table ever had; no
    row is ever deleted, so that is the largest rowid present. *)
Definition next_id (us : list user) : Z :=
  1 + fold_right Z.max 0 (map uid us).

(** [INSERT INTO users (name, email, password) VALUES (?, ?, ?)] followed by
    [commit]: the table after the statement, or the exception raised.  The
    parameters are bound first; the statement then needs the write lock of
    the database, which it cannot get while another connection holds it
    ([locked]); the constraints are checked last. *)
Definition insert_user (locked : bool) (us : list user) (name email : jvalue)
  (pw : bytes) : exn + list user :=
  match adapt name with
  | inl e => inl e
  | inr n =>
    match adapt email with
    | inl e => inl e
    | inr m =>
      if locked then inl OperationalError
      else
        match text_affinity n, text_affinity m with
        | Some n', Some m' =>
            if existsb (has_email m') us then inl IntegrityError
            else inr (us ++ [User (next_id us) n' m' pw])%list
        | _, _ => inl IntegrityError         (* NOT NULL constraint failed *)
        end
    end
  end.

(** [SELECT password FROM users WHERE email = ?] followed by [fetchone()]. *)
Definition select_password (us : list user) (email : jvalue) : exn + option bytes :=
  match adapt email with
  | inl e => inl e
  | inr m =>
    match text_affinity m with
    | None => inr None                       (* email = NULL is never true *)
    | Some m' => inr (option_map upassword (List.find (has_email m') us))
    end
  end.

(** ** Mail *)

Record mail := Mail {
  mfrom : string;
  mto : jvalue;
  msubject : string;
  mbody : string
}.

(** The SMTP conversation of [send_email]: [None] when the message was
    accepted, [Some msg] when building or sending it raised. *)
Definition relay := mail -> option string.

(** ** State *)

Record world := World {
  users : list user;               (* the rows of users.db *)
  session : option jvalue;         (* session['user'], when the key is set *)
  outbox : list mail;              (* messages accepted by the relay *)
  locked : bool                    (* a connection that a handler left open
                                      holds the write lock of users.db *)
}.

Definition set_users (w : world) (us : list user) : world :=
  World us (session w) (outbox w) (locked w).
Definition set_session (w : world) (s : option jvalue) : world :=
  World (users w) s (outbox w) (locked w).
Definition deliver (w : world) (m : mail) : world :=
  World (users w) (session w) (outbox w ++ [m])%list (locked w).
Definition set_locked (w : world) (b : bool) : world :=
  World (users w) (session w) (outbox w) b.

(** The garbage collector finalises the connections left open: their
    transactions are rolled back and the write lock is released. *)
Definition collect (w : world) : world := set_locked w false.

(** ** What the program takes from its libraries and environment *)

Record externals := Externals {
  SENDER_EMAIL : string;
  hashpw : bytes -> bytes -> option bytes;      (* None: bcrypt raised *)
  checkpw : bytes -> bytes -> option bool;      (* None: bcrypt raised *)
  strip : string -> string
}.

(** [password.encode()]: only a [str] has the method, and a lone surrogate
    cannot be encoded. *)
Definition encode (v : jvalue) : exn + bytes :=
  match v with
  | JStr s => inr (list_byte_of_string s)
  | JLone _ err => inl (UnicodeEncodeError err)
  | _ => inl AttributeError
  end.

(** The EmailMessage that [send_email] fills in. *)
Definition build_message (X : externals) (to : jvalue) (subject body : string) : mail :=
  Mail (SENDER_EMAIL X) to subject body.

(** [send_email(to, subject, body)]: builds the message and hands it to the
    relay; the result is the text of the exception raised, if any. *)
Definition send_email (X : externals) (smtp : relay) (to : jvalue)
  (subject body : string) : option string :=
  smtp (build_message X to subject body).

(** ** Route handlers *)

(** The prompt sent to the model by [/chat]. *)
Definition chat_prompt (user_prompt : jvalue) : string :=
  ("You are AquaBot, an expert on water sanitation and cleaning. "
   ++ "Answer the user's question clearly and accurately with practical and reliable information.

"
   ++ "User's Question: " ++ py_str user_prompt ++ "
"
   ++ "Answer:")%string.

(** [POST /chat].  [llm] is the outcome of [llm.invoke]: the content of the
    answer, or the text of the exception raised inside the [try]. *)
Definition chat (X : externals) (llm : string -> string + string)
  (w : world) (data : payload) : response * world :=
  match data with
  | JOther => (unhandled AttributeError, w)
  | JObject d =>
    let user_prompt := get_default d "prompt" (JStr "") in
    if negb (truthy user_prompt) then
      (Response 400 (Reply "❌ Please provide a valid question."), w)
    else
      match llm (chat_prompt user_prompt) with
      | inr content => (ok (Reply (strip X content)), w)
      | inl err => (Response 500 (Reply ("❌ An error occurred: " ++ err)%string), w)
      end
  end.

Definition welcome_subject : string := "🎉 Welcome to WaterGuard!".

Definition welcome_body (name : jvalue) : string :=
  ("Hi " ++ py_str name ++ ",

Thank you for signing up to 💧 WaterGuard — your smart partner for clean and safe water!

🚀 Features you now have access to:
- Check your water quality instantly
- Book doorstep testing kits
- Chat with AquaBot for water safety advice
- Get personalized insights & alerts

Explore now: https://your-waterguard-site.com

Clean water. Clear life.
— Team WaterGuard
")%string.

Definition welcome_mail (X : externals) (name email : jvalue) : mail :=
  build_message X email welcome_subject (welcome_body name).

(** [POST /signup].  [salt] is the value of [bcrypt.gensalt()]. *)
Definition signup (X : externals) (salt : bytes) (smtp : relay)
  (w : world) (data : payload) : response * world :=
  match data with
  | JOther => (unhandled AttributeError, w)
  | JObject d =>
    let name := get d "name" in
    let email := get d "email" in
    let password := get d "password" in
    if negb (truthy name) || negb (truthy email) || negb (truthy password) then
      (Response 400 (Message "❌ All fields required"), w)
    else
      (* hashing happens before the [try] *)
      match encode password with
      | inl e => (unhandled e, w)
      | inr pw =>
        match hashpw X pw salt with
        | None => (unhandled ValueError, w)
        | Some hashed_pw =>
          (* try: *)
          match insert_user (locked w) (users w) name email hashed_pw with
          | inl IntegrityError =>
              (* this return skips conn.close(): the connection stays open
                 with its transaction and the write lock *)
              (Response 409 (Message "❌ Email already registered"),
               set_locked w true)
          | inl e =>
              (Response 500 (Message ("❌ Server error: " ++ exn_str e)%string), w)
          | inr us =>
            let w1 := set_users w us in            (* conn.commit() *)
            match send_email X smtp email welcome_subject (welcome_body name) with
            | Some err =>
                (Response 500 (Message ("❌ Server error: " ++ err)%string), w1)
            | None =>
                (ok (Message "✅ Signup successful and welcome email sent!"),
                 set_session (deliver w1 (welcome_mail X name email)) (Some email))
            end
          end
        end
      end
  end.

(** [POST /login].  Nothing here is inside a [try]. *)
Definition login (X : externals) (w : world) (data : payload) : response * world :=
  match data with
  | JOther => (unhandled AttributeError, w)
  | JObject d =>
    let email := get d "email" in
    let password := get d "password" in
    match select_password (users w) email with
    | inl e => (unhandled e, w)
    | inr None => (Response 401 (Message "❌ Invalid credentials"), w)
    | inr (Some stored) =>
      match encode password with
      | inl e => (unhandled e, w)
      | inr pw =>
        match checkpw X pw stored with
        | None => (unhandled ValueError, w)
        | Some true => (ok (Message "✅ Login successful"), set_session w (Some email))
        | Some false => (Response 401 (Message "❌ Invalid credentials"), w)
        end
      end
    end
  end.

(** [POST /logout]: [session.pop('user', None)]. *)
Definition logout (w : world) : response * world :=
  (ok (Message "✅ Logged out"), set_session w None).

(** [GET /check-auth]. *)
Definition check_auth (w : world) : response * world :=
  match session w with
  | Some _ => (ok (Authenticated true), w)
  | None => (Response 401 (Authenticated false), w)
  end.

Definition booking_subject : string := "✅ WaterGuard Kit Booking Confirmed!".

Definition booking_body (name address date : jvalue) : string :=
  ("Hi " ++ py_str name ++ ",

Thanks for booking your Water Testing Kit with 💧 WaterGuard!

📍 Address:
" ++ py_str address ++ "

📦 Your kit will reach your doorstep by: " ++ py_str date ++ "

📘 The kit includes:
- pH Level Tester
- TDS Meter
- Turbidity Check
- Temperature Sensor
- Setup Manual

Stay safe & drink clean 🌊
— Team WaterGuard
")%string.

Definition booking_mail (X : externals) (d : gmap string jvalue) : mail :=
  build_message X (get d "email") booking_subject
    (booking_body (get d "name") (get d "address") (get d "date")).

(** [POST /book-kit].  The session is looked at before the body is read. *)
Definition book_kit (X : externals) (smtp : relay)
  (w : world) (data : payload) : response * world :=
  match session w with
  | None => (Response 401 (Message "❌ Please login to book a kit."), w)
  | Some _ =>
    match data with
    | JOther => (unhandled AttributeError, w)
    | JObject d =>
      let name := get d "name" in
      let email := get d "email" in
      let address := get d "address" in
      let date := get d "date" in
      match send_email X smtp email booking_subject (booking_body name address date) with
      | None =>
          (ok (Message "✅ Booking confirmed and email sent!"),
           deliver w (booking_mail X d))
      | Some err =>
          (Response 500 (Message ("❌ Email sending failed: " ++ err)%string), w)
      end
    end
  end.

(** ** The system as a transition function *)

Inductive request :=
| Chat (data : payload) (llm : string -> string + string)
| Signup (data : payload) (salt : bytes) (smtp : relay)
| Login (data : payload)
| Logout
| CheckAuth
| BookKit (data : payload) (smtp : relay).

Definition step (X : externals) (w : world) (r : request) : response * world :=
  match r with
  | Chat data llm => chat X llm w data
  | Signup data salt smtp => signup X salt smtp w data
  | Login data => login X w data
  | Logout => logout w
  | CheckAuth => check_auth w
  | BookKit data smtp => book_kit X smtp w data
  end.

(** What happens to the server: a request is served, or the garbage
    collector runs. *)
Inductive event :=
| Serve (r : request)
| Collect.

Definition react (X : externals) (w : world) (e : event) : world :=
  match e with
  | Serve r => snd (step X w r)
  | Collect => collect w
  end.

(** The state after the events, one after the other. *)
Definition run (X : externals) (w : world) (es : list event) : world :=
  fold_left (react X) es w.

(** The contract of bcrypt that the program relies on: a hash produced by
    [hashpw] verifies against the password it was made from. *)
Definition bcrypt_roundtrip (X : externals) : Prop :=
  forall p salt h, hashpw X p salt = Some h -> checkpw X p h = Some true.

(** Some row of the table has this email; no row has it. *)
Definition registered (us : list user) (e : string) : Prop :=
  existsb (has_email e) us = true.
Definition unused (us : list user) (e : string) : Prop :=
  existsb (has_email e) us = false.

(** A signup body with exactly the three fields, all strings. *)
Definition signup_payload (name email password : string) : payload :=
  JObject (<["name" := JStr name]> (<["email" := JStr email]>
            (<["password" := JStr password]> ∅))).

Definition login_payload (email password : string) : payload :=
  JObject (<["email" := JStr email]> (<["password" := JStr password]> ∅)).

(** ** A concrete instance of the externals, for evaluation

    A stand-in for bcrypt with the same interface: the hash is the salt
    followed by the password bytes, and verification compares the tail. *)
Definition toy_hashpw (p salt : bytes) : option bytes := Some (salt ++ p)%list.

Fixpoint bytes_eqb (a b : bytes) : bool :=
  match a, b with
  | [], [] => true
  | x :: a', y :: b' => Byte.eqb x y && bytes_eqb a' b'
  | _, _ => false
  end.

Definition toy_checkpw (p h : bytes) : option bool :=
  Some (bytes_eqb (skipn (length h - length p)%nat h) p).

Definition toy : externals :=
  Externals "noreply@waterguard.test" toy_hashpw toy_checkpw (fun s => s).

Definition toy_salt : bytes := list_byte_of_string "$2b$12$abcdefghijklmnopqrstuv".

Definition accepting : relay := fun _ => None.
Definition refusing : relay := fun _ => Some "Connection refused".

Definition empty_world : world := World [] None [] false.

(** A stand-in with the input limit of bcrypt 5: a password of more than 72
    bytes makes [hashpw] and [checkpw] raise ValueError. *)
Definition strict_hashpw (p salt : bytes) : option bytes :=
  if (72 <? length p)%nat then None else toy_hashpw p salt.
Definition strict_checkpw (p h : bytes) : option bool :=
  if (72 <? length p)%nat then None else toy_checkpw p h.
Definition strict : externals :=
  Externals "noreply@waterguard.test" strict_hashpw strict_checkpw (fun s => s).

(** A signup body that passes the check of the three fields, all of them
    non-empty strings. *)
Definition signup_fields (d : gmap string jvalue) (name email password : string) : Prop :=
  get d "name" = JStr name /\ get d "email" = JStr email /\
  get d "password" = JStr password /\
  name <> "" /\ email <> "" /\ password <> "".

Definition login_fields (d : gmap string jvalue) (email password : string) : Prop :=
  get d "email" = JStr email /\ get d "password" = JStr password.

(** The world the evaluations start from: Ann has signed up. *)
Definition ann_world : world :=
  snd (signup toy toy_salt accepting empty_world (signup_payload "Ann" "ann@x.org" "pw1")).


(** The str [x] followed by the lone surrogate U+D800, as the JSON text
    "x\ud800" parses. *)
Definition lone : jvalue :=
  JLone (string_of_list_byte [Byte.x78; Byte.xed; Byte.xa0; Byte.x80])
    "'utf-8' codec can't encode character '\ud800' in position 1: surrogates not allowed".

(** A password of 73 bytes. *)
Definition long_password : string :=
  "0123456789012345678901234567890123456789012345678901234567890123456789012".

(** A message of this system: sent from SENDER_EMAIL, with the subject of
    the welcome mail or of the booking confirmation. *)
Definition system_mail (X : externals) (m : mail) : Prop :=
  mfrom m = SENDER_EMAIL X /\
  (msubject m = welcome_subject \/ msubject m = booking_subject).

(** The session identity, when there is one, is the email of a row: the
    value kept in the cookie, bound to the SELECT as login does, is the
    email column of some row. *)
Definition session_has_account (w : world) : Prop :=
  match session w with
  | None => True
  | Some v =>
      exists m e, adapt v = inr m /\ text_affinity m = Some e /\
                  registered (users w) e
  end.

(** ** Start-up: the environment the module reads when it is imported *)

Record settings := Settings {
  api_key : string;          (* GOOGLE_API_KEY *)
  sender_email : string;     (* SENDER_EMAIL *)
  sender_pass : string       (* SENDER_PASS *)
}.

(** [not os.getenv(k)]: the variable is unset or empty. *)
Definition unset (v : option string) : bool :=
  match v with
  | None => true
  | Some s => String.eqb s ""
  end.

(** The statements before the Flask setup, on [os.environ] as it is after
    [load_dotenv()]: the exception text, or the three settings and the
    environment after [os.environ['GOOGLE_API_KEY'] = GOOGLE_API_KEY]. *)
Definition load_environment (environ : gmap string string)
  : string + (settings * gmap string string) :=
  let key := environ !! "GOOGLE_API_KEY" in
  let sender := environ !! "SENDER_EMAIL" in
  let pass := environ !! "SENDER_PASS" in
  if unset key then inl "❌ GOOGLE_API_KEY not found in .env"
  else if unset sender || unset pass then inl "❌ Email credentials not found in .env"
  else inr (Settings (default "" key) (default "" sender) (default "" pass),
            <["GOOGLE_API_KEY" := default "" key]> environ).

(** * Properties *)

(** ** Auxiliary facts *)

Lemma truthy_JStr (s : string) : s <> "" -> truthy (JStr s) = true.
Proof.
  intros Hs. simpl. apply negb_true_iff. now apply String.eqb_neq.
Qed.

Lemma bytes_eqb_refl (a : bytes) : bytes_eqb a a = true.
Proof.
  induction a as [|x a IH]; simpl; [reflexivity|].
  rewrite IH, andb_true_r. now apply Byte.byte_dec_lb.
Qed.

Lemma toy_roundtrip : bcrypt_roundtrip toy.
Proof.
  intros p salt h Hh. simpl in *. unfold toy_hashpw in Hh.
  injection Hh as <-. unfold toy_checkpw. f_equal.
  rewrite length_app.
  replace (length salt + length p - length p)%nat with (length salt + 0)%nat by lia.
  rewrite skipn_app, Nat.add_0_r, skipn_all.
  replace (length salt - length salt)%nat with 0%nat by lia.
  simpl. apply bytes_eqb_refl.
Qed.

Lemma find_app_fresh (us : list user) (e : string) (u : user) :
  unused us e -> uemail u = e ->
  List.find (has_email e) (us ++ [u])%list = Some u.
Proof.
  unfold unused. intros Hun Hu. induction us as [|v us IH]; simpl in *.
  - unfold has_email. rewrite Hu, String.eqb_refl. reflexivity.
  - apply orb_false_iff in Hun as [Hv Hus]. rewrite Hv. now apply IH.
Qed.

Lemma find_registered (us : list user) (e : string) :
  registered us e -> exists u, List.find (has_email e) us = Some u /\ uemail u = e.
Proof.
  unfold registered. induction us as [|v us IH]; simpl; [discriminate|].
  destruct (has_email e v) eqn:Hv.
  - intros _. exists v. split; [reflexivity|]. now apply String.eqb_eq.
  - simpl. exact IH.
Qed.

Lemma insert_user_fresh (us : list user) (n e : string) (h : bytes) :
  unused us e ->
  insert_user false us (JStr n) (JStr e) h
  = inr (us ++ [User (next_id us) n e h])%list.
Proof.
  unfold unused, insert_user. simpl. now intros ->.
Qed.

Lemma insert_user_duplicate (us : list user) (n e : string) (h : bytes) :
  registered us e ->
  insert_user false us (JStr n) (JStr e) h = inl IntegrityError.
Proof.
  unfold registered, insert_user. simpl. now intros ->.
Qed.

Lemma insert_user_extends (lk : bool) (us us' : list user) (name email : jvalue)
  (h : bytes) :
  insert_user lk us name email h = inr us' -> exists u, us' = (us ++ [u])%list.
Proof.
  unfold insert_user. intros H.
  destruct (adapt name) as [?|n]; [discriminate|].
  destruct (adapt email) as [?|m]; [discriminate|].
  destruct lk; [discriminate|].
  destruct (text_affinity n); [|discriminate].
  destruct (text_affinity m); [|discriminate].
  destruct (existsb _ us); [discriminate|].
  injection H as <-. eauto.
Qed.

(** A signup whose three fields pass the check reaches the INSERT. *)
Lemma signup_reaches_insert (X : externals) (salt : bytes) (smtp : relay) (w : world)
  (d : gmap string jvalue) (name email pw : string) (h : bytes) :
  signup_fields d name email pw ->
  hashpw X (list_byte_of_string pw) salt = Some h ->
  signup X salt smtp w (JObject d) =
  match insert_user (locked w) (users w) (JStr name) (JStr email) h with
  | inl IntegrityError =>
      (Response 409 (Message "❌ Email already registered"), set_locked w true)
  | inl e => (Response 500 (Message ("❌ Server error: " ++ exn_str e)%string), w)
  | inr us =>
      match smtp (welcome_mail X (JStr name) (JStr email)) with
      | Some err =>
          (Response 500 (Message ("❌ Server error: " ++ err)%string), set_users w us)
      | None =>
          (ok (Message "✅ Signup successful and welcome email sent!"),
           set_session (deliver (set_users w us) (welcome_mail X (JStr name) (JStr email)))
             (Some (JStr email)))
      end
  end.
Proof.
  intros (Hn & He & Hp & Hn0 & He0 & Hp0) Hh. unfold signup.
  rewrite Hn, He, Hp, !truthy_JStr by assumption. simpl. rewrite Hh. reflexivity.
Qed.

(** A login with the password a row was created from succeeds. *)
Lemma login_stored (X : externals) (w : world) (d : gmap string jvalue)
  (email pw : string) (u : user) :
  login_fields d email pw ->
  List.find (has_email email) (users w) = Some u ->
  checkpw X (list_byte_of_string pw) (upassword u) = Some true ->
  login X w (JObject d) =
  (ok (Message "✅ Login successful"), set_session w (Some (JStr email))).
Proof.
  intros [He Hp] Hu Hc. unfold login, select_password.
  rewrite He, Hp. simpl. rewrite Hu. simpl. rewrite Hc. reflexivity.
Qed.

(** ** Signup followed by login *)




(** ** Duplicate signup *)





(** ** Missing fields at login and booking *)

(** C3, evaluated: Ann is registered.  A login body that carries her email
    and no password makes [password.encode()] raise AttributeError outside
    any [try]: the exception leaves the handler, and the answer is Flask's
    500 page, not a JSON message and not a 400.  A login body with no field
    at all is answered 401, and a booking with no field at all is answered
    200; only signup and chat check their fields and answer 400. *)
Lemma login_missing_password_unhandled :
  registered (users ann_world) "ann@x.org" /\
  login toy ann_world (JObject {["email" := JStr "ann@x.org"]})
    = (Response 500 (Traceback AttributeError), ann_world) /\
  is_json (body (fst (login toy ann_world (JObject {["email" := JStr "ann@x.org"]}))))
    = false /\
  fst (login toy ann_world (JObject ∅))
    = Response 401 (Message "❌ Invalid credentials") /\
  status (fst (book_kit toy accepting ann_world (JObject ∅))) = 200 /\
  status (fst (signup toy toy_salt accepting ann_world (JObject ∅))) = 400.
Proof.
  repeat split; vm_compute; reflexivity.
Qed.

(** ** Wrong password *)

(** C4, evaluated: Ann is registered with the password pw1.  A login with
    her email and a wrong password that holds a lone surrogate makes
    [password.encode()] raise UnicodeEncodeError at line 142, outside any
    [try]; with the input limit of bcrypt 5, a wrong password of 73 bytes
    makes [bcrypt.checkpw] raise ValueError there.  Either exception leaves
    the handler: the answer is Flask's 500 page, not the 401 that the last
    line of login gives to every other wrong password. *)
Lemma login_wrong_password_unhandled :
  registered (users ann_world) "ann@x.org" /\
  login toy ann_world
    (JObject (<["email" := JStr "ann@x.org"]> {["password" := lone]}))
    = (Response 500
         (Traceback (UnicodeEncodeError
            "'utf-8' codec can't encode character '\ud800' in position 1: surrogates not allowed")),
       ann_world) /\
  login strict ann_world (login_payload "ann@x.org" long_password)
    = (Response 500 (Traceback ValueError), ann_world) /\
  fst (login toy ann_world (login_payload "ann@x.org" "guess"))
    = Response 401 (Message "❌ Invalid credentials").
Proof.
  repeat split; vm_compute; reflexivity.
Qed.

(** X25: when the email of the request is that of a row, the password is a
    string without lone surrogates and bcrypt reports that it does not match
    the stored hash, login answers 401 and the state, the session identity
    included, is what it was. *)
Theorem login_wrong_password (X : externals) (w : world) (d : gmap string jvalue)
  (email pw : string) (u : user) :
  login_fields d email pw ->
  List.find (has_email email) (users w) = Some u ->
  checkpw X (list_byte_of_string pw) (upassword u) = Some false ->
  login X w (JObject d) = (Response 401 (Message "❌ Invalid credentials"), w).
Proof.
  intros [He Hp] Hu Hc. unfold login, select_password.
  rewrite He, Hp. simpl. rewrite Hu. simpl. rewrite Hc. reflexivity.
Qed.

Lemma login_wrong_password_witness :
  login toy (set_session ann_world None) (login_payload "ann@x.org" "pw2")
  = (Response 401 (Message "❌ Invalid credentials"), set_session ann_world None).
Proof.
  apply (login_wrong_password toy (set_session ann_world None)
           (<["email" := JStr "ann@x.org"]> (<["password" := JStr "pw2"]> ∅))
           "ann@x.org" "pw2"
           (User 1 "Ann" "ann@x.org" (toy_salt ++ list_byte_of_string "pw1")%list)).
  - split; vm_compute; reflexivity.
  - vm_compute; reflexivity.
  - vm_compute; reflexivity.
Defined.

(** ** Session *)

(** C5: without a session identity, book-kit answers 401 whatever the
    payload and whatever the relay would do; the relay is not consulted and
    the outbox, like the rest of the state, is as before. *)
Theorem book_kit_requires_session (X : externals) (smtp : relay) (us : list user)
  (ob : list mail) (lk : bool) (data : payload) :
  book_kit X smtp (World us None ob lk) data
  = (Response 401 (Message "❌ Please login to book a kit."), World us None ob lk).
Proof.
  reflexivity.
Qed.

(** C6: from every state, check-auth right after logout answers 401 with
    the body authenticated = false. *)
Theorem logout_then_check_auth (w : world) :
  fst (check_auth (snd (logout w))) = Response 401 (Authenticated false).
Proof.
  reflexivity.
Qed.

(** ** Rows are only ever added *)

Lemma step_users_extend (X : externals) (w : world) (r : request) :
  exists new, users (snd (step X w r)) = (users w ++ new)%list.
Proof.
  assert (Hsame : forall us : list user, exists new, us = (us ++ new)%list)
    by (intros us; exists []; now rewrite app_nil_r).
  destruct r as [data llm|data salt smtp|data| | |data smtp]; simpl.
  - unfold chat. destruct data as [d|]; [|apply Hsame].
    destruct (negb _); [apply Hsame|]. destruct (llm _); apply Hsame.
  - unfold signup. destruct data as [d|]; [|apply Hsame].
    destruct (_ || _); [apply Hsame|].
    destruct (encode _) as [?|pw]; [apply Hsame|].
    destruct (hashpw X pw salt) as [h|]; [|apply Hsame].
    destruct (insert_user _ _ _ _ h) as [x|us] eqn:Hins.
    + destruct x; apply Hsame.
    + apply insert_user_extends in Hins as [u ->].
      destruct (send_email _ _ _ _ _); simpl; eauto.
  - unfold login. destruct data as [d|]; [|apply Hsame].
    destruct (select_password _ _) as [x|[stored|]]; try apply Hsame.
    destruct (encode _) as [?|pw]; [apply Hsame|].
    destruct (checkpw X pw stored) as [[|]|]; apply Hsame.
  - apply Hsame.
  - unfold check_auth. destruct (session w); apply Hsame.
  - unfold book_kit. destruct (session w); [|apply Hsame].
    destruct data as [d|]; [|apply Hsame].
    destruct (send_email _ _ _ _ _); apply Hsame.
Qed.

Lemma login_users (X : externals) (w : world) (data : payload) :
  users (snd (login X w data)) = users w.
Proof.
  unfold login. destruct data as [d|]; [|reflexivity].
  destruct (select_password _ _) as [x|[stored|]]; try reflexivity.
  destruct (encode _) as [?|pw]; [reflexivity|].
  now destruct (checkpw X pw stored) as [[|]|].
Qed.

Lemma react_users_extend (X : externals) (w : world) (e : event) :
  exists new, users (react X w e) = (users w ++ new)%list.
Proof.
  destruct e as [r|]; [apply step_users_extend|].
  exists []. simpl. now rewrite app_nil_r.
Qed.

Lemma run_users_extend (X : externals) (es : list event) :
  forall w, exists new, users (run X w es) = (users w ++ new)%list.
Proof.
  induction es as [|e es IH]; intros w.
  - exists []. simpl. now rewrite app_nil_r.
  - destruct (react_users_extend X w e) as [new1 H1].
    destruct (IH (react X w e)) as [new2 H2].
    exists (new1 ++ new2)%list.
    change (run X w (e :: es)) with (run X (react X w e) es).
    rewrite H2, H1. now rewrite <- app_assoc.
Qed.

(** C7: after any sequence of requests, from any state and with the
    garbage collector running at any moment in between, the users table is
    the table before followed by new rows: the rows that were there are
    still there, at the same positions and with the same contents.  Login
    leaves the table exactly as it was. *)
Theorem users_rows_never_change (X : externals) (w : world) (rs : list event) :
  (exists new, users (run X w rs) = (users w ++ new)%list) /\
  firstn (length (users w)) (users (run X w rs)) = users w /\
  (forall data, users (snd (login X w data)) = users w).
Proof.
  destruct (run_users_extend X rs w) as [new Hnew].
  split; [eauto|]. split.
  - rewrite Hnew, firstn_app, Nat.sub_diag, firstn_all. simpl. apply app_nil_r.
  - intros data. apply login_users.
Qed.

(** ** Signup is not atomic *)

(** C9: when the request passes the check of the fields and the INSERT is
    committed (the email is unused and no connection left open earlier
    holds the write lock) and the relay then raises on the welcome mail,
    signup answers 500 with the text of the exception and leaves the
    session and the outbox as they were, yet the table has the new row; a
    login that follows with the same email and password answers 200 and
    sets the session identity. *)
Theorem signup_mail_failure_keeps_row (X : externals) (salt : bytes) (smtp : relay)
  (w : world) (d d' : gmap string jvalue) (name email pw err : string) (h : bytes) :
  bcrypt_roundtrip X ->
  signup_fields d name email pw ->
  unused (users w) email ->
  locked w = false ->
  hashpw X (list_byte_of_string pw) salt = Some h ->
  smtp (welcome_mail X (JStr name) (JStr email)) = Some err ->
  login_fields d' email pw ->
  let after := signup X salt smtp w (JObject d) in
  fst after = Response 500 (Message ("❌ Server error: " ++ err)%string) /\
  session (snd after) = session w /\
  outbox (snd after) = outbox w /\
  users (snd after) = (users w ++ [User (next_id (users w)) name email h])%list /\
  fst (login X (snd after) (JObject d')) = Response 200 (Message "✅ Login successful") /\
  session (snd (login X (snd after) (JObject d'))) = Some (JStr email).
Proof.
  intros Hb Hd Hun Hlk Hh Hs Hd' after. subst after.
  rewrite (signup_reaches_insert X salt smtp w d name email pw h Hd Hh).
  rewrite Hlk, (insert_user_fresh _ name email h Hun), Hs. cbn [fst snd].
  do 4 (split; [reflexivity|]).
  set (u := User (next_id (users w)) name email h).
  set (w1 := set_users _ _).
  assert (Hlogin : login X w1 (JObject d')
                   = (ok (Message "✅ Login successful"),
                      set_session w1 (Some (JStr email)))).
  { apply (login_stored X w1 d' email pw u Hd').
    - simpl. apply find_app_fresh; [exact Hun | reflexivity].
    - simpl. eapply Hb; exact Hh. }
  rewrite Hlogin. split; reflexivity.
Qed.

Lemma signup_mail_failure_keeps_row_witness :
  let after := signup toy toy_salt refusing empty_world
                 (signup_payload "Ann" "ann@x.org" "pw1") in
  fst after = Response 500 (Message "❌ Server error: Connection refused") /\
  session (snd after) = None /\
  outbox (snd after) = [] /\
  users (snd after) =
    ([] ++ [User (next_id []) "Ann" "ann@x.org"
              (toy_salt ++ list_byte_of_string "pw1")%list])%list /\
  fst (login toy (snd after) (login_payload "ann@x.org" "pw1"))
    = Response 200 (Message "✅ Login successful") /\
  session (snd (login toy (snd after) (login_payload "ann@x.org" "pw1")))
    = Some (JStr "ann@x.org").
Proof.
  apply (signup_mail_failure_keeps_row toy toy_salt refusing empty_world
           (<["name" := JStr "Ann"]> (<["email" := JStr "ann@x.org"]>
              (<["password" := JStr "pw1"]> ∅)))
           (<["email" := JStr "ann@x.org"]> (<["password" := JStr "pw1"]> ∅))
           "Ann" "ann@x.org" "pw1" "Connection refused"
           (toy_salt ++ list_byte_of_string "pw1")%list).
  - exact toy_roundtrip.
  - repeat split; try (vm_compute; reflexivity); discriminate.
  - vm_compute; reflexivity.
  - reflexivity.
  - reflexivity.
  - reflexivity.
  - split; vm_compute; reflexivity.
Defined.

(** ** Booking *)


(** * Further properties of the handlers *)

(** ** Shared facts *)

(** What a successful INSERT produces: one new row at the end, with the
    next id, an email that no row had, and the password bytes given. *)
Lemma insert_user_inr (lk : bool) (us us' : list user) (name email : jvalue)
  (h : bytes) :
  insert_user lk us name email h = inr us' ->
  exists n m, adapt name = inr n /\ adapt email = inr m /\
    exists n' m', text_affinity n = Some n' /\ text_affinity m = Some m' /\
      existsb (has_email m') us = false /\
      us' = (us ++ [User (next_id us) n' m' h])%list.
Proof.
  unfold insert_user. intros H.
  destruct (adapt name) as [?|n]; [discriminate|].
  destruct (adapt email) as [?|m]; [discriminate|].
  destruct lk; [discriminate|].
  destruct (text_affinity n) as [n'|] eqn:Hn; [|discriminate].
  destruct (text_affinity m) as [m'|] eqn:Hm; [|discriminate].
  destruct (existsb _ us) eqn:Hex; [discriminate|].
  injection H as <-. exists n, m. repeat split. exists n', m'. now repeat split.
Qed.

(** The users table after a request is the table before, or the result of
    one successful INSERT by signup. *)
Lemma step_users_cases (X : externals) (w : world) (r : request) :
  users (snd (step X w r)) = users w \/
  exists data salt smtp name email h,
    r = Signup data salt smtp /\
    insert_user (locked w) (users w) name email h = inr (users (snd (step X w r))).
Proof.
  destruct r as [data llm|data salt smtp|data| | |data smtp]; simpl.
  - left. unfold chat. destruct data as [d|]; [|reflexivity].
    destruct (negb _); [reflexivity|]. now destruct (llm _).
  - unfold signup. destruct data as [d|]; [|now left].
    destruct (_ || _); [now left|].
    destruct (encode _) as [?|pw]; [now left|].
    destruct (hashpw X pw salt) as [h|]; [|now left].
    destruct (insert_user _ _ _ _ h) as [x|us] eqn:Hins.
    + left. now destruct x.
    + right. exists (JObject d), salt, smtp, (get d "name"), (get d "email"), h.
      split; [reflexivity|]. rewrite Hins.
      now destruct (send_email _ _ _ _ _).
  - left. apply login_users.
  - now left.
  - left. unfold check_auth. now destruct (session w).
  - left. unfold book_kit. destruct (session w); [|reflexivity].
    destruct data as [d|]; [|reflexivity]. now destruct (send_email _ _ _ _ _).
Qed.

(** A property of the state that every request keeps, and that does not
    depend on the lock, is kept by every sequence of events. *)
Lemma run_preserves (X : externals) (P : world -> Prop) :
  (forall w r, P w -> P (snd (step X w r))) ->
  (forall w, P w -> P (collect w)) ->
  forall es w, P w -> P (run X w es).
Proof.
  intros Hstep Hgc es. induction es as [|e es IH]; intros w Hw; [exact Hw|].
  change (run X w (e :: es)) with (run X (react X w e) es).
  apply IH. destruct e as [r|]; [apply Hstep | apply Hgc]; exact Hw.
Qed.

Lemma existsb_has_email_false (us : list user) (e : string) :
  existsb (has_email e) us = false -> ~ In e (map uemail us).
Proof.
  induction us as [|u us IH]; simpl; [tauto|].
  intros H [Hu|Hin]; apply orb_false_iff in H as [H1 H2].
  - unfold has_email in H1. rewrite Hu, String.eqb_refl in H1. discriminate.
  - now apply IH.
Qed.

Lemma uid_below_next_id (us : list user) (i : Z) :
  In i (map uid us) -> i < next_id us.
Proof.
  unfold next_id. induction us as [|u us IH]; simpl; [tauto|].
  intros [<-|Hin]; [lia|]. specialize (IH Hin). lia.
Qed.

Lemma NoDup_snoc_fresh {A : Type} (l : list A) (x : A) :
  List.NoDup l -> ~ In x l -> List.NoDup (l ++ [x])%list.
Proof.
  intros Hl Hx. induction Hl as [|y l Hy Hl IH]; simpl.
  - constructor; [tauto|constructor].
  - constructor.
    + rewrite in_app_iff. simpl. intros [H|[H|[]]]; [tauto|]. subst. apply Hx. now left.
    + apply IH. intros H. apply Hx. now right.
Qed.

(** With distinct emails, the row the SELECT finds for an email is the row
    that has it. *)
Lemma find_unique_email (us : list user) (u : user) :
  List.NoDup (map uemail us) -> In u us ->
  List.find (has_email (uemail u)) us = Some u.
Proof.
  induction us as [|v us IH]; simpl; [tauto|].
  intros Hnd Hin. inversion Hnd as [|? ? Hv Hnd']; subst.
  destruct Hin as [->|Hin].
  - unfold has_email. now rewrite String.eqb_refl.
  - destruct (has_email (uemail u) v) eqn:Hv'.
    + exfalso. apply Hv. unfold has_email in Hv'. apply String.eqb_eq in Hv'.
      rewrite Hv'. now apply in_map.
    + now apply IH.
Qed.

Lemma registered_snoc (us : list user) (u : user) :
  registered (us ++ [u])%list (uemail u).
Proof.
  unfold registered. rewrite existsb_app. simpl. unfold has_email at 2.
  rewrite String.eqb_refl. now rewrite orb_true_r.
Qed.

Lemma encode_inr (v : jvalue) (b : bytes) :
  encode v = inr b -> exists s, v = JStr s /\ b = list_byte_of_string s.
Proof.
  destruct v; simpl; try discriminate. intros [= <-]. eauto.
Qed.

(** ** Chat *)

(** X1: a chat request whose prompt is absent, null, empty, zero or false is
    answered 400 with the fixed reply; the model is not called and the state
    is as before. *)
Theorem chat_rejects_empty_prompt (X : externals) (llm : string -> string + string)
  (w : world) (d : gmap string jvalue) :
  truthy (get_default d "prompt" (JStr "")) = false ->
  chat X llm w (JObject d)
  = (Response 400 (Reply "❌ Please provide a valid question."), w).
Proof.
  intros H. unfold chat. now rewrite H.
Qed.

Lemma chat_rejects_empty_prompt_witness :
  chat toy (fun _ => inr "unused") empty_world (JObject ∅)
    = (Response 400 (Reply "❌ Please provide a valid question."), empty_world) /\
  chat toy (fun _ => inr "unused") empty_world (JObject {["prompt" := JNull]})
    = (Response 400 (Reply "❌ Please provide a valid question."), empty_world).
Proof.
  split.
  - apply (chat_rejects_empty_prompt toy (fun _ => inr "unused") empty_world ∅).
    vm_compute; reflexivity.
  - apply (chat_rejects_empty_prompt toy (fun _ => inr "unused") empty_world
             {["prompt" := JNull]}).
    vm_compute; reflexivity.
Defined.

(** X2: on a body that [request.json] has parsed, chat neither reads nor
    changes the state: it answers the same in every state, logged in or
    not, and leaves users, session, outbox and lock as they were; its
    status is then 200, 400 or 500, and on a JSON object its text is always
    carried under the key reply, errors included. *)
Theorem chat_stateless (X : externals) (llm : string -> string + string)
  (w w' : world) (data : payload) :
  snd (chat X llm w data) = w /\
  fst (chat X llm w data) = fst (chat X llm w' data) /\
  (status (fst (chat X llm w data)) = 200 \/
   status (fst (chat X llm w data)) = 400 \/
   status (fst (chat X llm w data)) = 500) /\
  forall d, exists text, body (fst (chat X llm w (JObject d))) = Reply text.
Proof.
  unfold chat. repeat split.
  - destruct data as [d|]; [|reflexivity].
    destruct (negb _); [reflexivity|]. now destruct (llm _).
  - destruct data as [d|]; [|reflexivity].
    destruct (negb _); [reflexivity|]. now destruct (llm _).
  - destruct data as [d|]; [|auto].
    destruct (negb _); [auto|]. destruct (llm _); auto.
  - intros d. destruct (negb _); [eauto|]. destruct (llm _); simpl; eauto.
Qed.

(** X3: for a prompt that passes the check, the model is asked the fixed
    instruction followed by the question; an exception raised by the call
    is answered 500 with its text in the reply, and an answer is returned
    stripped with status 200. *)
Theorem chat_upstream_outcome (X : externals) (llm : string -> string + string)
  (w : world) (d : gmap string jvalue) (question : string) :
  get_default d "prompt" (JStr "") = JStr question ->
  question <> "" ->
  (forall err, llm (chat_prompt (JStr question)) = inl err ->
     fst (chat X llm w (JObject d))
     = Response 500 (Reply ("❌ An error occurred: " ++ err)%string)) /\
  (forall content, llm (chat_prompt (JStr question)) = inr content ->
     fst (chat X llm w (JObject d)) = Response 200 (Reply (strip X content))) /\
  String.prefix "You are AquaBot, an expert on water sanitation and cleaning. "
    (chat_prompt (JStr question)) = true.
Proof.
  intros Hq Hne. unfold chat. rewrite Hq, truthy_JStr by assumption. simpl negb.
  cbv iota. repeat split.
  - intros err ->. reflexivity.
  - intros content ->. reflexivity.
Qed.

Lemma chat_upstream_outcome_witness :
  fst (chat toy (fun _ => inl "quota exceeded") empty_world
         (JObject {["prompt" := JStr "Is rain water safe?"]}))
  = Response 500 (Reply "❌ An error occurred: quota exceeded").
Proof.
  assert (Hq : get_default {["prompt" := JStr "Is rain water safe?"]} "prompt" (JStr "")
               = JStr "Is rain water safe?") by (vm_compute; reflexivity).
  assert (Hne : "Is rain water safe?" <> "") by discriminate.
  exact (proj1 (chat_upstream_outcome toy (fun _ => inl "quota exceeded") empty_world
                  _ "Is rain water safe?" Hq Hne) "quota exceeded" eq_refl).
Defined.

(** ** Signup *)

(** X4: a signup request in which the name, the email or the password is
    absent, null, empty, zero or false is answered 400; nothing is hashed,
    inserted or mailed, and the state is as before. *)
Theorem signup_rejects_missing_field (X : externals) (salt : bytes) (smtp : relay)
  (w : world) (d : gmap string jvalue) :
  truthy (get d "name") = false \/ truthy (get d "email") = false \/
  truthy (get d "password") = false ->
  signup X salt smtp w (JObject d)
  = (Response 400 (Message "❌ All fields required"), w).
Proof.
  intros H. unfold signup.
  assert (Hg : negb (truthy (get d "name")) || negb (truthy (get d "email"))
               || negb (truthy (get d "password")) = true).
  { destruct H as [->|[->| ->]]; simpl; rewrite ?orb_true_r; reflexivity. }
  now rewrite Hg.
Qed.

Lemma signup_rejects_missing_field_witness :
  signup toy toy_salt accepting ann_world
    (JObject (<["name" := JStr "Bob"]> {["password" := JStr "pw2"]}))
  = (Response 400 (Message "❌ All fields required"), ann_world).
Proof.
  apply (signup_rejects_missing_field toy toy_salt accepting ann_world
           (<["name" := JStr "Bob"]> {["password" := JStr "pw2"]})).
  right; left. vm_compute; reflexivity.
Defined.

(** X5: when the three fields pass the check and the password is not a
    string (a number, or true), [password.encode()] raises AttributeError
    before the [try]: the exception leaves the handler, the answer is
    Flask's 500 page and the state is as before. *)
Theorem signup_password_not_string (X : externals) (salt : bytes) (smtp : relay)
  (w : world) (d : gmap string jvalue) :
  truthy (get d "name") = true -> truthy (get d "email") = true ->
  truthy (get d "password") = true ->
  is_str (get d "password") = false ->
  signup X salt smtp w (JObject d) = (Response 500 (Traceback AttributeError), w).
Proof.
  intros Hn He Hp Hs. unfold signup. rewrite Hn, He, Hp. simpl.
  destruct (get d "password") as [|b|n|s|s err]; simpl; try reflexivity;
    discriminate.
Qed.

Lemma signup_password_not_string_witness :
  signup toy toy_salt accepting empty_world
    (JObject (<["name" := JStr "Ann"]> (<["email" := JStr "ann@x.org"]>
       {["password" := JInt 123456]})))
  = (Response 500 (Traceback AttributeError), empty_world).
Proof.
  apply (signup_password_not_string toy toy_salt accepting empty_world
           (<["name" := JStr "Ann"]> (<["email" := JStr "ann@x.org"]>
              {["password" := JInt 123456]}))).
  - vm_compute; reflexivity.
  - vm_compute; reflexivity.
  - vm_compute; reflexivity.
  - vm_compute; reflexivity.
Defined.

(** X6: a signup answered 200 has done all of this: the password was a
    string, its bcrypt hash for the drawn salt is the stored password of
    exactly one new row at the end of the table, with the next id and an
    email no row had; the welcome mail for the request's name and email was
    accepted and is the one new message of the outbox; the session identity
    is the request's email. *)
Theorem signup_success_effects (X : externals) (salt : bytes) (smtp : relay)
  (w : world) (d : gmap string jvalue) :
  status (fst (signup X salt smtp w (JObject d))) = 200 ->
  exists (pw : string) (u : user),
    get d "password" = JStr pw /\
    hashpw X (list_byte_of_string pw) salt = Some (upassword u) /\
    uid u = next_id (users w) /\
    unused (users w) (uemail u) /\
    users (snd (signup X salt smtp w (JObject d))) = (users w ++ [u])%list /\
    smtp (welcome_mail X (get d "name") (get d "email")) = None /\
    outbox (snd (signup X salt smtp w (JObject d)))
      = (outbox w ++ [welcome_mail X (get d "name") (get d "email")])%list /\
    session (snd (signup X salt smtp w (JObject d))) = Some (get d "email").
Proof.
  unfold signup.
  destruct (_ || _); [discriminate|].
  destruct (encode _) as [?|pwb] eqn:Henc; [discriminate|].
  destruct (hashpw X pwb salt) as [h|] eqn:Hh; [|discriminate].
  destruct (insert_user _ _ _ _ h) as [x|us] eqn:Hins; [now destruct x|].
  destruct (send_email _ _ _ _ _) eqn:Hsend; [discriminate|]. intros _.
  apply encode_inr in Henc as (pw & Hpw & ->).
  apply insert_user_inr in Hins as (n & m & _ & _ & n' & m' & _ & _ & Hex & ->).
  exists pw, (User (next_id (users w)) n' m' h). simpl. repeat split; assumption.
Qed.

Lemma signup_success_effects_witness :
  exists (pw : string) (u : user),
    get (<["name" := JStr "Ann"]> (<["email" := JStr "ann@x.org"]>
           {["password" := JStr "pw1"]})) "password" = JStr pw /\
    hashpw toy (list_byte_of_string pw) toy_salt = Some (upassword u) /\
    uid u = next_id (users empty_world) /\
    unused (users empty_world) (uemail u) /\
    users ann_world = (users empty_world ++ [u])%list.
Proof.
  destruct (signup_success_effects toy toy_salt accepting empty_world
              (<["name" := JStr "Ann"]> (<["email" := JStr "ann@x.org"]>
                 {["password" := JStr "pw1"]})))
    as (pw & u & H1 & H2 & H3 & H4 & H5 & _).
  - vm_compute; reflexivity.
  - exists pw, u. repeat split; assumption.
Defined.

(** X7: a signup that is not answered 200 sets no session identity and
    delivers no mail: session and outbox are as before, whatever the
    payload. *)
Theorem signup_failure_keeps_session (X : externals) (salt : bytes) (smtp : relay)
  (w : world) (data : payload) :
  status (fst (signup X salt smtp w data)) <> 200 ->
  session (snd (signup X salt smtp w data)) = session w /\
  outbox (snd (signup X salt smtp w data)) = outbox w.
Proof.
  unfold signup. destruct data as [d|]; [|now split].
  destruct (_ || _); [now split|].
  destruct (encode _) as [?|pwb]; [now split|].
  destruct (hashpw X pwb salt) as [h|]; [|now split].
  destruct (insert_user _ _ _ _ h) as [x|us]; [now destruct x|].
  destruct (send_email _ _ _ _ _); [now split|].
  intros H. now destruct H.
Qed.

Lemma signup_failure_keeps_session_witness :
  session (snd (signup toy toy_salt refusing ann_world
                  (signup_payload "Bob" "bob@x.org" "pw2"))) = session ann_world /\
  outbox (snd (signup toy toy_salt refusing ann_world
                 (signup_payload "Bob" "bob@x.org" "pw2"))) = outbox ann_world.
Proof.
  apply (signup_failure_keeps_session toy toy_salt refusing ann_world
           (signup_payload "Bob" "bob@x.org" "pw2")).
  vm_compute. discriminate.
Defined.

(** X8: a signup whose INSERT was committed (unused email, no write lock
    held) and that was answered 500 because the welcome mail was refused
    cannot be repeated: the row is there, so a second signup with the same
    email that passes the check of the fields (non-empty name and password,
    strings without lone surrogates, password hashed without error) is
    answered 409, whatever its salt and relay. *)
Theorem signup_retry_after_mail_failure (X : externals) (salt salt' : bytes)
  (smtp smtp' : relay) (w : world) (d d' : gmap string jvalue)
  (name name' email pw pw' err : string) (h h' : bytes) :
  signup_fields d name email pw ->
  unused (users w) email ->
  locked w = false ->
  hashpw X (list_byte_of_string pw) salt = Some h ->
  smtp (welcome_mail X (JStr name) (JStr email)) = Some err ->
  signup_fields d' name' email pw' ->
  hashpw X (list_byte_of_string pw') salt' = Some h' ->
  status (fst (signup X salt smtp w (JObject d))) = 500 /\
  fst (signup X salt' smtp' (snd (signup X salt smtp w (JObject d))) (JObject d'))
  = Response 409 (Message "❌ Email already registered").
Proof.
  intros Hd Hun Hlk Hh Hs Hd' Hh'.
  rewrite (signup_reaches_insert X salt smtp w d name email pw h Hd Hh).
  rewrite Hlk, (insert_user_fresh _ name email h Hun), Hs. cbn [fst snd status].
  split; [reflexivity|].
  rewrite (signup_reaches_insert X salt' smtp' _ d' name' email pw' h' Hd' Hh').
  cbn [locked set_users]. rewrite Hlk.
  rewrite insert_user_duplicate; [reflexivity|].
  simpl. apply (registered_snoc (users w) (User (next_id (users w)) name email h)).
Qed.

Lemma signup_retry_after_mail_failure_witness :
  status (fst (signup toy toy_salt refusing empty_world
                 (signup_payload "Ann" "ann@x.org" "pw1"))) = 500 /\
  fst (signup toy toy_salt accepting
         (snd (signup toy toy_salt refusing empty_world
                 (signup_payload "Ann" "ann@x.org" "pw1")))
         (signup_payload "Ann" "ann@x.org" "pw1"))
  = Response 409 (Message "❌ Email already registered").
Proof.
  apply (signup_retry_after_mail_failure toy toy_salt toy_salt refusing accepting
           empty_world
           (<["name" := JStr "Ann"]> (<["email" := JStr "ann@x.org"]>
              (<["password" := JStr "pw1"]> ∅)))
           (<["name" := JStr "Ann"]> (<["email" := JStr "ann@x.org"]>
              (<["password" := JStr "pw1"]> ∅)))
           "Ann" "Ann" "ann@x.org" "pw1" "pw1" "Connection refused"
           (toy_salt ++ list_byte_of_string "pw1")%list
           (toy_salt ++ list_byte_of_string "pw1")%list).
  - repeat split; try (vm_compute; reflexivity); discriminate.
  - vm_compute; reflexivity.
  - reflexivity.
  - reflexivity.
  - reflexivity.
  - repeat split; try (vm_compute; reflexivity); discriminate.
  - reflexivity.
Defined.

(** ** Invariants of the users table *)

(** X9: the emails of the table stay pairwise distinct: from a table with
    distinct emails, every sequence of requests, with the garbage collector
    running at any moment in between, leads to a table with distinct
    emails. *)
Theorem emails_stay_distinct (X : externals) (w : world) (rs : list event) :
  List.NoDup (map uemail (users w)) ->
  List.NoDup (map uemail (users (run X w rs))).
Proof.
  revert w.
  apply (run_preserves X (fun w => List.NoDup (map uemail (users w)))); [|tauto].
  intros w r Hnd.
  destruct (step_users_cases X w r) as [->|(data & salt & smtp & name & email & h & _ & Hins)];
    [exact Hnd|].
  apply insert_user_inr in Hins as (n & m & _ & _ & n' & m' & _ & _ & Hex & ->).
  rewrite map_app. simpl. apply NoDup_snoc_fresh; [exact Hnd|].
  now apply existsb_has_email_false.
Qed.

Lemma emails_stay_distinct_witness :
  List.NoDup (map uemail (users (run toy empty_world
    [Serve (Signup (signup_payload "Ann" "ann@x.org" "pw1") toy_salt accepting);
     Serve (Signup (signup_payload "Bob" "ann@x.org" "pw2") toy_salt accepting);
     Collect;
     Serve (Signup (signup_payload "Bob" "bob@x.org" "pw2") toy_salt refusing)]))).
Proof.
  apply (emails_stay_distinct toy empty_world). simpl. constructor.
Defined.

(** X10: the ids of the table stay pairwise distinct: from a table with
    distinct ids, every sequence of requests leads to a table with distinct
    ids (a new row gets an id above every id present). *)
Theorem ids_stay_distinct (X : externals) (w : world) (rs : list event) :
  List.NoDup (map uid (users w)) ->
  List.NoDup (map uid (users (run X w rs))).
Proof.
  revert w.
  apply (run_preserves X (fun w => List.NoDup (map uid (users w)))); [|tauto].
  intros w r Hnd.
  destruct (step_users_cases X w r) as [->|(data & salt & smtp & name & email & h & _ & Hins)];
    [exact Hnd|].
  apply insert_user_inr in Hins as (n & m & _ & _ & n' & m' & _ & _ & Hex & ->).
  rewrite map_app. simpl. apply NoDup_snoc_fresh; [exact Hnd|].
  intros Hin. apply uid_below_next_id in Hin. lia.
Qed.

Lemma ids_stay_distinct_witness :
  List.NoDup (map uid (users (run toy ann_world
    [Serve (Signup (signup_payload "Bob" "bob@x.org" "pw2") toy_salt accepting);
     Serve Logout;
     Serve (Signup (signup_payload "Cy" "cy@x.org" "pw3") toy_salt refusing)]))).
Proof.
  apply (ids_stay_distinct toy ann_world).
  vm_compute. constructor; [intros []|constructor].
Defined.

(** ** Login *)

(** X11: a login whose email is absent or null, or is a string without lone
    surrogates that no row has, is answered 401 and leaves the state as it
    was, whatever the password field holds: the password is not looked at,
    so a password that is absent, not a string or not encodable raises
    nothing here. *)
Theorem login_unknown_email (X : externals) (w : world) (d : gmap string jvalue) :
  get d "email" = JNull \/
  (exists e, get d "email" = JStr e /\ unused (users w) e) ->
  login X w (JObject d) = (Response 401 (Message "❌ Invalid credentials"), w).
Proof.
  unfold login, select_password. intros [->|(e & -> & Hun)]; simpl; [reflexivity|].
  assert (Hfind : List.find (has_email e) (users w) = None).
  { unfold unused in Hun. induction (users w) as [|u us IH]; simpl in *; [reflexivity|].
    apply orb_false_iff in Hun as [-> Hus]. now apply IH. }
  now rewrite Hfind.
Qed.

Lemma login_unknown_email_witness :
  login toy ann_world (JObject {["email" := JStr "bob@x.org"]})
  = (Response 401 (Message "❌ Invalid credentials"), ann_world).
Proof.
  apply (login_unknown_email toy ann_world {["email" := JStr "bob@x.org"]}).
  right. exists "bob@x.org". split; vm_compute; reflexivity.
Defined.

(** X12: a login answered 200 was given a string password that bcrypt
    verified against the stored hash of a row of the table, the one the
    SELECT returned for the request's email; the only change of state is the
    session identity, set to the request's email. *)
Theorem login_success_sound (X : externals) (w : world) (data : payload) :
  status (fst (login X w data)) = 200 ->
  exists (d : gmap string jvalue) (pw : string) (u : user),
    data = JObject d /\
    get d "password" = JStr pw /\
    In u (users w) /\
    checkpw X (list_byte_of_string pw) (upassword u) = Some true /\
    select_password (users w) (get d "email") = inr (Some (upassword u)) /\
    snd (login X w data) = set_session w (Some (get d "email")).
Proof.
  unfold login. destruct data as [d|]; [|discriminate].
  destruct (select_password _ _) as [x|[stored|]] eqn:Hsel; try discriminate.
  destruct (encode _) as [?|pwb] eqn:Henc; [discriminate|].
  destruct (checkpw X pwb stored) as [[|]|] eqn:Hc; try discriminate. intros _.
  apply encode_inr in Henc as (pw & Hpw & ->).
  assert (Hrow : exists u, In u (users w) /\ upassword u = stored).
  { unfold select_password in Hsel.
    destruct (adapt _) as [?|m]; [discriminate|].
    destruct (text_affinity m) as [m'|]; [|discriminate].
    destruct (List.find (has_email m') (users w)) as [u|] eqn:Hfind; [|discriminate].
    simpl in Hsel. injection Hsel as Hst. exists u. split; [|exact Hst].
    now apply find_some in Hfind. }
  destruct Hrow as (u & Hin & <-).
  exists d, pw, u. repeat split; assumption.
Qed.

Lemma login_success_sound_witness :
  exists (d : gmap string jvalue) (pw : string) (u : user),
    login_payload "ann@x.org" "pw1" = JObject d /\
    get d "password" = JStr pw /\
    In u (users ann_world) /\
    checkpw toy (list_byte_of_string pw) (upassword u) = Some true.
Proof.
  destruct (login_success_sound toy ann_world (login_payload "ann@x.org" "pw1"))
    as (d & pw & u & H1 & H2 & H3 & H4 & _).
  - vm_compute; reflexivity.
  - exists d, pw, u. repeat split; assumption.
Defined.

(** X13: a login that is not answered 200 changes nothing: users, outbox
    and session are as before, so a failed login does not end the session
    of whoever is logged in. *)
Theorem login_failure_keeps_state (X : externals) (w : world) (data : payload) :
  status (fst (login X w data)) <> 200 ->
  snd (login X w data) = w.
Proof.
  unfold login. destruct data as [d|]; [|reflexivity].
  destruct (select_password _ _) as [x|[stored|]]; try reflexivity.
  destruct (encode _) as [?|pwb]; [reflexivity|].
  destruct (checkpw X pwb stored) as [[|]|]; try reflexivity.
  intros H. now destruct H.
Qed.

Lemma login_failure_keeps_state_witness :
  snd (login toy ann_world (login_payload "ann@x.org" "guess")) = ann_world.
Proof.
  apply (login_failure_keeps_state toy ann_world (login_payload "ann@x.org" "guess")).
  vm_compute. discriminate.
Defined.

(** X14: in a table with distinct emails, whichever row holds an account, a
    login with that row's email and a password that bcrypt verifies against
    that row's hash is answered 200 and sets the session identity to the
    email; nothing else changes. *)
Theorem login_any_row (X : externals) (w : world) (d : gmap string jvalue)
  (u : user) (pw : string) :
  List.NoDup (map uemail (users w)) ->
  In u (users w) ->
  login_fields d (uemail u) pw ->
  checkpw X (list_byte_of_string pw) (upassword u) = Some true ->
  login X w (JObject d)
  = (Response 200 (Message "✅ Login successful"),
     set_session w (Some (JStr (uemail u)))).
Proof.
  intros Hnd Hin Hd Hc.
  apply (login_stored X w d (uemail u) pw u Hd); [|exact Hc].
  now apply find_unique_email.
Qed.

Lemma login_any_row_witness :
  let w := run toy ann_world
             [Serve (Signup (signup_payload "Bob" "bob@x.org" "pw2") toy_salt accepting);
              Serve Logout] in
  login toy w (login_payload "bob@x.org" "pw2")
  = (Response 200 (Message "✅ Login successful"),
     set_session w (Some (JStr "bob@x.org"))).
Proof.
  intros w.
  apply (login_any_row toy w
           (<["email" := JStr "bob@x.org"]> (<["password" := JStr "pw2"]> ∅))
           (User 2 "Bob" "bob@x.org" (toy_salt ++ list_byte_of_string "pw2")%list)
           "pw2").
  - vm_compute. constructor; [intros [H|[]]; discriminate|].
    constructor; [intros []|constructor].
  - vm_compute. right; left; reflexivity.
  - split; vm_compute; reflexivity.
  - vm_compute; reflexivity.
Defined.

(** ** Session and access *)

Lemma login_ok_session (X : externals) (w : world) (data : payload) :
  status (fst (login X w data)) = 200 ->
  exists v, session (snd (login X w data)) = Some v.
Proof.
  unfold login. destruct data as [d|]; [|discriminate].
  destruct (select_password _ _) as [x|[stored|]]; try discriminate.
  destruct (encode _) as [?|pwb]; [discriminate|].
  destruct (checkpw X pwb stored) as [[|]|]; try discriminate.
  intros _. simpl. eauto.
Qed.

Lemma signup_ok_session (X : externals) (salt : bytes) (smtp : relay) (w : world)
  (data : payload) :
  status (fst (signup X salt smtp w data)) = 200 ->
  exists v, session (snd (signup X salt smtp w data)) = Some v.
Proof.
  unfold signup. destruct data as [d|]; [|discriminate].
  destruct (_ || _); [discriminate|].
  destruct (encode _) as [?|pwb]; [discriminate|].
  destruct (hashpw X pwb salt) as [h|]; [|discriminate].
  destruct (insert_user _ _ _ _ h) as [x|us]; [now destruct x|].
  destruct (send_email _ _ _ _ _); [discriminate|].
  intros _. simpl. eauto.
Qed.

(** X15: logout is answered 200 in every state, also when nobody is logged
    in; it changes only the session, a second logout changes nothing more,
    and after it book-kit is answered 401 for every payload and relay. *)
Theorem logout_ends_access (X : externals) (w : world) :
  fst (logout w) = Response 200 (Message "✅ Logged out") /\
  users (snd (logout w)) = users w /\
  outbox (snd (logout w)) = outbox w /\
  logout (snd (logout w)) = logout w /\
  forall (smtp : relay) (data : payload),
    book_kit X smtp (snd (logout w)) data
    = (Response 401 (Message "❌ Please login to book a kit."), snd (logout w)).
Proof.
  repeat split.
Qed.

(** X16: after a login or a signup answered 200, check-auth answers 200
    with authenticated true and book-kit is no longer answered 401, whatever
    its payload and relay. *)
Theorem credentials_grant_access (X : externals) (w : world) (r : request) :
  (exists data, r = Login data) \/ (exists data salt smtp, r = Signup data salt smtp) ->
  status (fst (step X w r)) = 200 ->
  fst (check_auth (snd (step X w r))) = Response 200 (Authenticated true) /\
  forall (smtp : relay) (data : payload),
    status (fst (book_kit X smtp (snd (step X w r)) data)) <> 401.
Proof.
  intros Hr Hok.
  assert (Hs : exists v, session (snd (step X w r)) = Some v).
  { destruct Hr as [(data & ->)|(data & salt & smtp & ->)]; simpl in *.
    - now apply login_ok_session.
    - now apply signup_ok_session. }
  destruct Hs as [v Hv]. split.
  - unfold check_auth. now rewrite Hv.
  - intros smtp data. unfold book_kit. rewrite Hv.
    destruct data as [d|]; [|discriminate].
    destruct (send_email _ _ _ _ _); discriminate.
Qed.

Lemma credentials_grant_access_witness :
  fst (check_auth (snd (step toy (set_session ann_world None)
                          (Login (login_payload "ann@x.org" "pw1")))))
  = Response 200 (Authenticated true).
Proof.
  apply (credentials_grant_access toy (set_session ann_world None)
           (Login (login_payload "ann@x.org" "pw1"))).
  - left. eexists. reflexivity.
  - vm_compute; reflexivity.
Defined.

(** X17: check-auth and book-kit use the same test: book-kit is answered
    401 exactly when the session has no identity, which is exactly when
    check-auth is answered 401; with an identity check-auth is answered
    200. *)
Theorem auth_gate_agrees (X : externals) (smtp : relay) (w : world) (data : payload) :
  (status (fst (book_kit X smtp w data)) = 401 <-> session w = None) /\
  (status (fst (check_auth w)) = 401 <-> session w = None) /\
  (status (fst (check_auth w)) = 200 <-> session w <> None) /\
  snd (check_auth w) = w.
Proof.
  unfold book_kit, check_auth. destruct (session w) as [v|]; simpl.
  - repeat split; try discriminate; try (intros _; discriminate).
    destruct data as [d|]; [|discriminate].
    destruct (send_email _ _ _ _ _); discriminate.
  - repeat split; try discriminate; try reflexivity. intros H. now destruct H.
Qed.

(** ** All routes *)

(** X18: for each of the six routes, in every state, and for every request
    whose body [request.json] has parsed, the status of the answer is one
    of 200, 400, 401, 409 and 500. *)
Theorem step_status_codes (X : externals) (w : world) (r : request) :
  In (status (fst (step X w r))) [200; 400; 401; 409; 500].
Proof.
  destruct r as [data llm|data salt smtp|data| | |data smtp]; simpl.
  - unfold chat. destruct data as [d|]; [|tauto].
    destruct (negb _); [simpl; tauto|]. destruct (llm _); simpl; tauto.
  - unfold signup. destruct data as [d|]; [|tauto].
    destruct (_ || _); [simpl; tauto|].
    destruct (encode _) as [?|pwb]; [simpl; tauto|].
    destruct (hashpw X pwb salt) as [h|]; [|simpl; tauto].
    destruct (insert_user _ _ _ _ h) as [x|us]; [destruct x; simpl; tauto|].
    destruct (send_email _ _ _ _ _); simpl; tauto.
  - unfold login. destruct data as [d|]; [|tauto].
    destruct (select_password _ _) as [x|[stored|]]; simpl; try tauto.
    destruct (encode _) as [?|pwb]; [simpl; tauto|].
    destruct (checkpw X pwb stored) as [[|]|]; simpl; tauto.
  - tauto.
  - unfold check_auth. destruct (session w); simpl; tauto.
  - unfold book_kit. destruct (session w); [|simpl; tauto].
    destruct data as [d|]; [|simpl; tauto].
    destruct (send_email _ _ _ _ _); simpl; tauto.
Qed.

(** X19: for a request whose body [request.json] has parsed, an exception
    that leaves the handler uncaught (an AttributeError, a
    UnicodeEncodeError, a ValueError of bcrypt, an OverflowError of the
    SELECT) is answered with Flask's 500 page and comes with the state
    exactly as it was before the request. *)
Theorem crash_keeps_state (X : externals) (w : world) (r : request) :
  is_json (body (fst (step X w r))) = false ->
  status (fst (step X w r)) = 500 /\ snd (step X w r) = w.
Proof.
  destruct r as [data llm|data salt smtp|data| | |data smtp]; simpl.
  - unfold chat. destruct data as [d|]; [|now split].
    destruct (negb _); [discriminate|]. destruct (llm _); discriminate.
  - unfold signup. destruct data as [d|]; [|now split].
    destruct (_ || _); [discriminate|].
    destruct (encode _) as [?|pwb]; [now split|].
    destruct (hashpw X pwb salt) as [h|]; [|now split].
    destruct (insert_user _ _ _ _ h) as [x|us]; [destruct x; discriminate|].
    destruct (send_email _ _ _ _ _); discriminate.
  - unfold login. destruct data as [d|]; [|now split].
    destruct (select_password _ _) as [x|[stored|]]; try discriminate; [now split|].
    destruct (encode _) as [?|pwb]; [now split|].
    destruct (checkpw X pwb stored) as [[|]|]; try discriminate. now split.
  - discriminate.
  - unfold check_auth. destruct (session w); discriminate.
  - unfold book_kit. destruct (session w); [|discriminate].
    destruct data as [d|]; [|now split].
    destruct (send_email _ _ _ _ _); discriminate.
Qed.

Lemma crash_keeps_state_witness :
  status (fst (step toy ann_world (Login JOther))) = 500 /\
  snd (step toy ann_world (Login JOther)) = ann_world.
Proof.
  apply (crash_keeps_state toy ann_world (Login JOther)). reflexivity.
Defined.

(** ** Mail that leaves the system *)

(** The outbox after a request: as before, or one more message, delivered
    by a signup or a booking that was answered 200. *)
Lemma step_outbox_cases (X : externals) (w : world) (r : request) :
  outbox (snd (step X w r)) = outbox w \/
  exists m, outbox (snd (step X w r)) = (outbox w ++ [m])%list /\
    system_mail X m /\ status (fst (step X w r)) = 200 /\
    ((exists data salt smtp, r = Signup data salt smtp /\ smtp m = None) \/
     (exists data smtp, r = BookKit data smtp /\ smtp m = None)).
Proof.
  destruct r as [data llm|data salt smtp|data| | |data smtp]; simpl.
  - left. unfold chat. destruct data as [d|]; [|reflexivity].
    destruct (negb _); [reflexivity|]. now destruct (llm _).
  - unfold signup. destruct data as [d|]; [|now left].
    destruct (_ || _); [now left|].
    destruct (encode _) as [?|pwb]; [now left|].
    destruct (hashpw X pwb salt) as [h|]; [|now left].
    destruct (insert_user _ _ _ _ h) as [x|us]; [left; now destruct x|].
    destruct (send_email _ _ _ _ _) eqn:Hsend; [now left|].
    right. exists (welcome_mail X (get d "name") (get d "email")). simpl.
    repeat split; [now left|]. left. exists (JObject d), salt, smtp. now split.
  - left. unfold login. destruct data as [d|]; [|reflexivity].
    destruct (select_password _ _) as [x|[stored|]]; try reflexivity.
    destruct (encode _) as [?|pwb]; [reflexivity|].
    now destruct (checkpw X pwb stored) as [[|]|].
  - now left.
  - left. unfold check_auth. now destruct (session w).
  - unfold book_kit. destruct (session w); [|now left].
    destruct data as [d|]; [|now left].
    destruct (send_email _ _ _ _ _) eqn:Hsend; [now left|].
    right. exists (booking_mail X d). simpl.
    repeat split; [now right|]. right. exists (JObject d), smtp. now split.
Qed.

(** X20: every message the system delivers is sent from SENDER_EMAIL and
    carries the welcome subject or the booking subject: if that holds of the
    outbox, it holds of the outbox after every sequence of requests. *)
Theorem outbox_only_system_mail (X : externals) (w : world) (rs : list event) :
  Forall (system_mail X) (outbox w) ->
  Forall (system_mail X) (outbox (run X w rs)).
Proof.
  revert w.
  apply (run_preserves X (fun w => Forall (system_mail X) (outbox w))); [|tauto].
  intros w r Hall.
  destruct (step_outbox_cases X w r) as [->|(m & -> & Hm & _)]; [exact Hall|].
  apply Forall_app. split; [exact Hall|]. now constructor.
Qed.

Lemma outbox_only_system_mail_witness :
  Forall (system_mail toy) (outbox (run toy empty_world
    [Serve (Signup (signup_payload "Ann" "ann@x.org" "pw1") toy_salt accepting);
     Serve (BookKit (JObject {["email" := JStr "ann@x.org"]}) accepting);
     Serve Logout;
     Serve (BookKit (JObject {["email" := JStr "ann@x.org"]}) accepting)])).
Proof.
  apply (outbox_only_system_mail toy empty_world). constructor.
Defined.

(** X21: a request adds at most one row to the users table, and only a
    signup does: the table after is the table before, or the request is a
    signup answered 200 or 500 and the table has one more row at its end,
    with the next id and an email no row had. *)
Theorem only_signup_adds_rows (X : externals) (w : world) (r : request) :
  users (snd (step X w r)) = users w \/
  exists data salt smtp u,
    r = Signup data salt smtp /\
    users (snd (step X w r)) = (users w ++ [u])%list /\
    uid u = next_id (users w) /\
    unused (users w) (uemail u) /\
    (status (fst (step X w r)) = 200 \/ status (fst (step X w r)) = 500).
Proof.
  destruct r as [data llm|data salt smtp|data| | |data smtp]; simpl.
  - left. unfold chat. destruct data as [d|]; [|reflexivity].
    destruct (negb _); [reflexivity|]. now destruct (llm _).
  - unfold signup. destruct data as [d|]; [|now left].
    destruct (_ || _); [now left|].
    destruct (encode _) as [?|pwb]; [now left|].
    destruct (hashpw X pwb salt) as [h|]; [|now left].
    destruct (insert_user _ _ _ _ h) as [x|us] eqn:Hins; [left; now destruct x|].
    apply insert_user_inr in Hins as (n & m & _ & _ & n' & m' & _ & _ & Hex & ->).
    right. exists (JObject d), salt, smtp, (User (next_id (users w)) n' m' h).
    destruct (send_email _ _ _ _ _); simpl; repeat split; auto.
  - left. apply login_users.
  - now left.
  - left. unfold check_auth. now destruct (session w).
  - left. unfold book_kit. destruct (session w); [|reflexivity].
    destruct data as [d|]; [|reflexivity]. now destruct (send_email _ _ _ _ _).
Qed.

(** X22: a request delivers at most one message, and only a signup or a
    booking that is answered 200 delivers one; every other request, and
    every request answered with another status, leaves the outbox as it
    was. *)
Theorem mail_only_on_success (X : externals) (w : world) (r : request) :
  (status (fst (step X w r)) <> 200 -> outbox (snd (step X w r)) = outbox w) /\
  (outbox (snd (step X w r)) = outbox w \/
   exists m, outbox (snd (step X w r)) = (outbox w ++ [m])%list /\
     ((exists data salt smtp, r = Signup data salt smtp /\ smtp m = None) \/
      (exists data smtp, r = BookKit data smtp /\ smtp m = None))).
Proof.
  destruct (step_outbox_cases X w r) as [H|(m & H & _ & Hok & Hr)].
  - split; [intros _; exact H | now left].
  - split; [intros Hne; now destruct Hne | right; eauto].
Qed.

(** ** Start-up *)

(** X23: the module loads exactly when GOOGLE_API_KEY, SENDER_EMAIL and
    SENDER_PASS are all set and non-empty; the settings are then the values
    of the environment, which is left as it was.  Otherwise it raises, and
    the text names the API key whenever that is unset or empty, whatever
    the mail credentials are. *)
Theorem load_environment_requires_credentials (environ : gmap string string) :
  match load_environment environ with
  | inr (s, environ') =>
      environ !! "GOOGLE_API_KEY" = Some (api_key s) /\ api_key s <> "" /\
      environ !! "SENDER_EMAIL" = Some (sender_email s) /\ sender_email s <> "" /\
      environ !! "SENDER_PASS" = Some (sender_pass s) /\ sender_pass s <> "" /\
      environ' = environ
  | inl text =>
      if unset (environ !! "GOOGLE_API_KEY")
      then text = "❌ GOOGLE_API_KEY not found in .env"
      else text = "❌ Email credentials not found in .env" /\
           (unset (environ !! "SENDER_EMAIL") = true \/
            unset (environ !! "SENDER_PASS") = true)
  end.
Proof.
  unfold load_environment.
  destruct (environ !! "GOOGLE_API_KEY") as [k|] eqn:Hk; simpl; [|reflexivity].
  destruct (String.eqb k "") eqn:Hk0; [reflexivity|].
  destruct (environ !! "SENDER_EMAIL") as [e|] eqn:He; simpl; [|auto].
  destruct (String.eqb e "") eqn:He0; simpl; [auto|].
  destruct (environ !! "SENDER_PASS") as [p|] eqn:Hp; simpl; [|auto].
  destruct (String.eqb p "") eqn:Hp0; simpl; [auto|].
  apply String.eqb_neq in Hk0, He0, Hp0.
  repeat split; try assumption. now apply insert_id.
Qed.

(** ** Whoever is logged in has an account *)

Lemma registered_app (us new : list user) (e : string) :
  registered us e -> registered (us ++ new)%list e.
Proof.
  unfold registered. intros H. now rewrite existsb_app, H.
Qed.

Lemma find_registered_inv (us : list user) (e : string) (u : user) :
  List.find (has_email e) us = Some u -> registered us e.
Proof.
  unfold registered. intros H. apply find_some in H as [Hin He].
  apply existsb_exists. eauto.
Qed.

Lemma step_session_has_account (X : externals) (w : world) (r : request) :
  session_has_account w -> session_has_account (snd (step X w r)).
Proof.
  intros Hw. destruct r as [data llm|data salt smtp|data| | |data smtp]; simpl.
  - unfold chat. destruct data as [d|]; [|exact Hw].
    destruct (negb _); [exact Hw|]. now destruct (llm _).
  - unfold signup. destruct data as [d|]; [|exact Hw].
    destruct (_ || _); [exact Hw|].
    destruct (encode _) as [?|pwb]; [exact Hw|].
    destruct (hashpw X pwb salt) as [h|]; [|exact Hw].
    destruct (insert_user _ _ _ _ h) as [x|us] eqn:Hins; [now destruct x|].
    apply insert_user_inr in Hins as (n & m & _ & Hm & n' & m' & _ & Hm' & _ & ->).
    destruct (send_email _ _ _ _ _); simpl.
    + unfold session_has_account in *. simpl. destruct (session w) as [v|]; [|exact I].
      destruct Hw as (m0 & e & H1 & H2 & H3). exists m0, e.
      repeat split; try assumption. now apply registered_app.
    + unfold session_has_account. simpl. exists m, m'. repeat split; try assumption.
      apply (registered_snoc (users w) (User (next_id (users w)) n' m' h)).
  - unfold login. destruct data as [d|]; [|exact Hw].
    destruct (select_password _ _) as [x|[stored|]] eqn:Hsel; try exact Hw.
    destruct (encode _) as [?|pwb]; [exact Hw|].
    destruct (checkpw X pwb stored) as [[|]|]; try exact Hw.
    unfold select_password in Hsel.
    destruct (adapt (get d "email")) as [?|m] eqn:Hm; [discriminate|].
    destruct (text_affinity m) as [m'|] eqn:Hm'; [|discriminate].
    destruct (List.find (has_email m') (users w)) as [u|] eqn:Hfind; [|discriminate].
    unfold session_has_account. simpl. exists m, m'. repeat split; try assumption.
    now apply find_registered_inv in Hfind.
  - exact I.
  - unfold check_auth. now destruct (session w).
  - unfold book_kit. destruct (session w) as [v|] eqn:Hs; [|exact Hw].
    destruct data as [d|]; [|exact Hw].
    destruct (send_email _ _ _ _ _); [exact Hw|].
    unfold session_has_account in *. simpl. now rewrite Hs in *.
Qed.

(** X24: whoever is logged in has an account: if the session identity is
    the email of a row (or there is no identity), then after every sequence
    of requests the session identity is again the email of a row of the
    table, or there is none. *)
Theorem session_always_has_account (X : externals) (w : world) (rs : list event) :
  session_has_account w ->
  session_has_account (run X w rs).
Proof.
  revert w. apply (run_preserves X session_has_account); [|tauto].
  intros w r. apply step_session_has_account.
Qed.

Lemma session_always_has_account_witness :
  session_has_account (run toy empty_world
    [Serve (Signup (signup_payload "Ann" "ann@x.org" "pw1") toy_salt accepting);
     Serve (Login (login_payload "ann@x.org" "guess"));
     Serve (Signup (signup_payload "Bob" "bob@x.org" "pw2") toy_salt refusing);
     Collect;
     Serve (Login (login_payload "bob@x.org" "pw2"))]).
Proof.
  apply (session_always_has_account toy empty_world). exact I.
Defined.

(** ** The connection that a duplicate signup leaves open *)




(** X27: only signup needs the write lock: chat, login, logout, check-auth
    and book-kit give the same answer and have the same effect on users,
    session and outbox whether or not a connection left open holds the
    lock, and none of them takes or releases it; a signup takes it only
    when it is answered 409. *)
Theorem lock_only_matters_to_signup (X : externals) (w : world) (r : request)
  (b : bool) :
  ((forall data salt smtp, r <> Signup data salt smtp) ->
   step X (set_locked w b) r = (fst (step X w r), set_locked (snd (step X w r)) b)) /\
  (status (fst (step X w r)) <> 409 -> locked (snd (step X w r)) = locked w) /\
  (status (fst (step X w r)) = 409 -> locked (snd (step X w r)) = true).
Proof.
  split; [|split].
  - intros Hr. destruct r as [data llm|data salt smtp|data| | |data smtp]; simpl.
    + unfold chat. destruct data as [d|]; [|reflexivity].
      destruct (negb _); [reflexivity|]. now destruct (llm _).
    + now destruct (Hr data salt smtp).
    + unfold login. destruct data as [d|]; [|reflexivity]. simpl.
      destruct (select_password _ _) as [x|[stored|]]; try reflexivity.
      destruct (encode _) as [?|pw]; [reflexivity|].
      now destruct (checkpw X pw stored) as [[|]|].
    + reflexivity.
    + unfold check_auth. simpl. now destruct (session w).
    + unfold book_kit. simpl. destruct (session w); [|reflexivity].
      destruct data as [d|]; [|reflexivity]. now destruct (send_email _ _ _ _ _).
  - destruct r as [data llm|data salt smtp|data| | |data smtp]; simpl.
    + unfold chat. destruct data as [d|]; [|reflexivity].
      destruct (negb _); [reflexivity|]. now destruct (llm _).
    + unfold signup. destruct data as [d|]; [|reflexivity].
      destruct (_ || _); [reflexivity|].
      destruct (encode _) as [?|pw]; [reflexivity|].
      destruct (hashpw X pw salt) as [h|]; [|reflexivity].
      destruct (insert_user _ _ _ _ h) as [x|us].
      * destruct x; try reflexivity. intros H. now destruct H.
      * now destruct (send_email _ _ _ _ _).
    + unfold login. destruct data as [d|]; [|reflexivity].
      destruct (select_password _ _) as [x|[stored|]]; try reflexivity.
      destruct (encode _) as [?|pw]; [reflexivity|].
      now destruct (checkpw X pw stored) as [[|]|].
    + reflexivity.
    + unfold check_auth. now destruct (session w).
    + unfold book_kit. destruct (session w); [|reflexivity].
      destruct data as [d|]; [|reflexivity]. now destruct (send_email _ _ _ _ _).
  - destruct r as [data llm|data salt smtp|data| | |data smtp]; simpl.
    + unfold chat. destruct data as [d|]; [|discriminate].
      destruct (negb _); [discriminate|]. destruct (llm _); discriminate.
    + unfold signup. destruct data as [d|]; [|discriminate].
      destruct (_ || _); [discriminate|].
      destruct (encode _) as [?|pw]; [discriminate|].
      destruct (hashpw X pw salt) as [h|]; [|discriminate].
      destruct (insert_user _ _ _ _ h) as [x|us].
      * destruct x; try discriminate. reflexivity.
      * destruct (send_email _ _ _ _ _); discriminate.
    + unfold login. destruct data as [d|]; [|discriminate].
      destruct (select_password _ _) as [x|[stored|]]; try discriminate.
      destruct (encode _) as [?|pw]; [discriminate|].
      destruct (checkpw X pw stored) as [[|]|]; discriminate.
    + discriminate.
    + unfold check_auth. destruct (session w); discriminate.
    + unfold book_kit. destruct (session w); [|discriminate].
      destruct data as [d|]; [|discriminate].
      destruct (send_email _ _ _ _ _); discriminate.
Qed.

(** ** Strings that UTF-8 cannot encode *)

(** X28: a login whose email holds a lone surrogate cannot bind it to the
    SELECT, and a login with the email of a row whose password holds a lone
    surrogate cannot encode it: either way the UnicodeEncodeError leaves the
    handler, the answer is Flask's 500 page and the state is as before. *)
Theorem login_lone_surrogate (X : externals) (w : world) (d : gmap string jvalue)
  (s err : string) :
  (get d "email" = JLone s err \/
   (get d "password" = JLone s err /\
    exists e, get d "email" = JStr e /\ registered (users w) e)) ->
  login X w (JObject d) = (Response 500 (Traceback (UnicodeEncodeError err)), w).
Proof.
  unfold login, select_password.
  intros [->|(-> & e & -> & Hreg)]; simpl; [reflexivity|].
  destruct (find_registered _ _ Hreg) as (u & -> & _). reflexivity.
Qed.

Lemma login_lone_surrogate_witness :
  login toy ann_world (JObject {["email" := lone]})
  = (Response 500
       (Traceback (UnicodeEncodeError
          "'utf-8' codec can't encode character '\ud800' in position 1: surrogates not allowed")),
     ann_world).
Proof.
  apply (login_lone_surrogate toy ann_world {["email" := lone]}
           (string_of_list_byte [Byte.x78; Byte.xed; Byte.xa0; Byte.x80])).
  left. vm_compute; reflexivity.
Defined.


